(** * jtssql.Storage: a SQL storage for tabular data described by a
    JSON Table Schema.

    Shallow embedding of [jtssql/storage.py].  The [Storage] handle owns an
    engine, a name prefix and a cache of the table listing; its methods are
    functions in a state-and-exception monad over the handle.  The SQL
    engine and the row caster of the schema library are collaborators of the
    code: the engine is modelled by a small in-memory store, the caster is an
    interface ([RowCaster]). *)

From Stdlib Require Import ZArith Lia Ascii.
From stdpp Require Import base option list strings gmap.


(** ** Python strings *)

Module PyStr.

(** The double-quote character, for message templates. *)
Definition dq : string := String "034"%char EmptyString.

(** [s.startswith(p)] *)
Fixpoint startswith (s p : string) {struct p} : bool :=
  match p, s with
  | EmptyString, _ => true
  | String _ _, EmptyString => false
  | String a p', String b s' => if Ascii.eqb a b then startswith s' p' else false
  end.

(** [s[n:]] *)
Fixpoint drop (n : nat) (s : string) : string :=
  match n, s with
  | O, _ => s
  | S _, EmptyString => EmptyString
  | S n', String _ s' => drop n' s'
  end.

(** [s.replace(old, new, 1)]: the leftmost occurrence of [old] in [s] is
    replaced by [new]; [s] is returned as it is when [old] does not occur
    in it.  The empty [old] occurs at position 0. *)
Fixpoint replace_first (s old new : string) : string :=
  if startswith s old then new +:+ drop (String.length old) s
  else match s with
       | EmptyString => EmptyString
       | String c s' => String c (replace_first s' old new)
       end.

End PyStr.

(** ** Values, rows and schemas *)

(** A Python value of a row: [None], a bool, an int, a decimal number
    (unscaled value and scale) or a text. *)
Inductive pyval : Type :=
| PyNone
| PyBool (b : bool)
| PyInt (z : Z)
| PyNum (unscaled : Z) (scale : nat)
| PyText (s : string).

#[global] Instance pyval_eq_dec : EqDecision pyval.
Proof. solve_decision. Defined.

(** The dict [rdata] that [write] builds for a row: field name to value. *)
Abbreviation record := (gmap string pyval).

(** An incoming row is unpacked with [*row]: a sequence gives its items, a
    mapping gives its keys (iterating a dict yields the keys). *)
Inductive rawrow : Type :=
| Positional (items : list pyval)
| Keyed (items : list (string * pyval)).

Definition unpack (row : rawrow) : list pyval :=
  match row with
  | Positional items => items
  | Keyed items => map (fun kv => PyText (fst kv)) items
  end.

(** A field descriptor [{'name': ..., 'type': ...}] and a schema descriptor
    [{'fields': [...]}]. *)
Record Field : Type := mkField { field_name : string; field_type : string }.

Record Schema : Type := mkSchema { fields : list Field }.

#[global] Instance Field_eq_dec : EqDecision Field.
Proof. solve_decision. Defined.

#[global] Instance Schema_eq_dec : EqDecision Schema.
Proof. solve_decision. Defined.

(** ** SQLAlchemy column types

    The module imports eight type classes: the generic [Text], [Integer],
    [Float], [Boolean], whose instances [__convert_schema] puts in new
    columns, and the SQL standard [TEXT], [INTEGER], [FLOAT], [BOOLEAN],
    the classes that key the table of [__restore_schema].  A column type is
    identified by its class; [OtherType] stands for any other class and
    carries its textual form. *)
Inductive sqltype : Type :=
| Text | Integer | Float | Boolean
| TEXT | INTEGER | FLOAT | BOOLEAN
| OtherType (repr : string).

#[global] Instance sqltype_eq_dec : EqDecision sqltype.
Proof. solve_decision. Defined.

(** [str(column.type)] *)
Definition sqltype_str (t : sqltype) : string :=
  match t with
  | Text | TEXT => "TEXT"
  | Integer | INTEGER => "INTEGER"
  | Float | FLOAT => "FLOAT"
  | Boolean | BOOLEAN => "BOOLEAN"
  | OtherType repr => repr
  end.

Record Column : Type := mkColumn { column_name : string; column_type : sqltype }.

#[global] Instance Column_eq_dec : EqDecision Column.
Proof. solve_decision. Defined.

(** ** Exceptions and results *)

Inductive exn : Type :=
| RuntimeError (message : string)
| TypeError (message : string)
| IndexError
| NoSuchTableError (name : string)
| OperationalError (message : string)
| ConversionError (message : string).

#[global] Instance exn_eq_dec : EqDecision exn.
Proof. solve_decision. Defined.

Inductive result (A : Type) : Type :=
| Ok (a : A)
| Raise (e : exn).

Arguments Ok {A} a.
Arguments Raise {A} e.

Definition rbind {A B} (r : result A) (k : A -> result B) : result B :=
  match r with
  | Ok a => k a
  | Raise e => Raise e
  end.

(** A loop that appends [f x] for each [x], and stops at the first
    exception. *)
Fixpoint rmap {A B} (f : A -> result B) (l : list A) : result (list B) :=
  match l with
  | [] => Ok []
  | x :: l' => rbind (f x) (fun y => rbind (rmap f l') (fun ys => Ok (y :: ys)))
  end.

(** ** The SQL engine

    The engine that the handle is given is a collaborator of the module.
    It is modelled by the catalog of the tables of the database schema in
    use: per store-visible name, the declared columns and the stored rows.
    Every operation fails as a whole or takes effect as a whole. *)

Module Engine.

Record dbtable : Type := mkTable {
  columns : list Column;
  rows : list record }.

Record t : Type := mkEngine {
  (** [str(engine)] *)
  engine_str : string;
  (** the dialect: the class of the type that reflection reports for a
      column declared with a given type *)
  reflected_type : sqltype -> sqltype;
  (** the rows that executing an insert with an empty list of parameter
      sets adds: the driver's business *)
  empty_insert : list record;
  catalog : gmap string dbtable }.

Definition with_catalog (e : t) (c : gmap string dbtable) : t :=
  mkEngine (engine_str e) (reflected_type e) (empty_insert e) c.

(** [engine.table_names(schema=dbschema)] *)
Definition table_names (e : t) : list string := (map_to_list (catalog e)).*1.

(** [Table(name, MetaData(), *columns).create(engine)].  The model makes the
    table of the columns as they are given, which is the table that the
    database makes of a list with at least one column and no repeated name;
    what SQLAlchemy and a database do with another list (the last column of
    a repeated name is kept, a table without columns is refused) is not
    modelled, and the properties of a table just created are stated for
    schemas of distinct field names. *)
Definition create_table (e : t) (name : string) (cols : list Column) : result t :=
  match catalog e !! name with
  | Some _ => Raise (OperationalError ("table " +:+ name +:+ " already exists"))
  | None => Ok (with_catalog e (<[name := mkTable cols []]> (catalog e)))
  end.

(** [Table(name, MetaData()).drop(engine)] *)
Definition drop_table (e : t) (name : string) : result t :=
  match catalog e !! name with
  | Some _ => Ok (with_catalog e (base.delete name (catalog e)))
  | None => Raise (OperationalError ("no such table: " +:+ name))
  end.

(** [Table(name, MetaData(), autoload=True, autoload_with=engine)]: the
    columns of the table, in their order, with the types as the dialect
    reflects them. *)
Definition reflect (e : t) (name : string) : result (list Column) :=
  match catalog e !! name with
  | Some tb =>
      Ok (map (fun c => mkColumn (column_name c) (reflected_type e (column_type c)))
              (columns tb))
  | None => Raise (NoSuchTableError name)
  end.

(** [engine.connect().execute(table.insert(), cdata)].  The model stores the
    records that it is handed, as they are; what a driver does to a value
    on its way in (a number stored as a float, an int out of the range of
    the column refused) is not modelled. *)
Definition execute_insert (e : t) (name : string) (cdata : list record) : result t :=
  match catalog e !! name with
  | Some tb =>
      let added := match cdata with [] => empty_insert e | _ => cdata end in
      Ok (with_catalog e (<[name := mkTable (columns tb) (rows tb ++ added)]> (catalog e)))
  | None => Raise (NoSuchTableError name)
  end.

(** [engine.connect().execute(select([table]))]: one tuple per stored row,
    in column order, of the values as they are stored; a column without a
    value is NULL. *)
Definition execute_select (e : t) (name : string) : result (list (list pyval)) :=
  match catalog e !! name with
  | Some tb =>
      Ok (map (fun r : record => map (fun c => default PyNone (r !! column_name c)) (columns tb))
              (rows tb))
  | None => Raise (NoSuchTableError name)
  end.

End Engine.

(** ** The row caster

    [SchemaModel(schema).convert_row] applied to the unpacked row of the schema library: the cast
    values of a row, or an exception. *)
Class RowCaster : Type :=
  convert_row : list Field -> list pyval -> result (list pyval).

(** ** The storage *)

Module Storage.

Import PyStr.

(** The attributes that [__init__] sets: [__engine], [__dbschema],
    [__prefix] and the cache [__tables] ([None] at first). *)
Record t : Type := mkStorage {
  __engine : Engine.t;
  __dbschema : option string;
  __prefix : string;
  __tables : option (list string) }.

Definition init (engine : Engine.t) (dbschema : option string) (prefix : string) : t :=
  mkStorage engine dbschema prefix None.

(** A method: it returns or raises, and leaves the handle as it is by then. *)
Definition M (A : Type) : Type := t -> result A * t.

Definition ret {A} (a : A) : M A := fun self => (Ok a, self).

Definition raise {A} (e : exn) : M A := fun self => (Raise e, self).

Definition bind {A B} (m : M A) (k : A -> M B) : M B :=
  fun self =>
    match m self with
    | (Ok a, self') => k a self'
    | (Raise e, self') => (Raise e, self')
    end.

Definition lift {A} (r : result A) : M A := fun self => (r, self).

Definition get : M t := fun self => (Ok self, self).

Definition set_engine (engine : Engine.t) : M unit :=
  fun self => (Ok tt, mkStorage engine (__dbschema self) (__prefix self) (__tables self)).

Definition set_tables (tables : option (list string)) : M unit :=
  fun self => (Ok tt, mkStorage (__engine self) (__dbschema self) (__prefix self) tables).

Declare Scope storage_scope.
Delimit Scope storage_scope with storage.
Notation "x <- m ;; k" := (bind m (fun x => k))
  (at level 100, m at next level, right associativity) : storage_scope.
Notation "m ;;; k" := (bind m (fun _ => k))
  (at level 100, right associativity) : storage_scope.
Open Scope storage_scope.

(** [__repr__] *)
Definition repr (self : t) : string :=
  "Storage <" +:+ Engine.engine_str (__engine self) +:+ "/"
    +:+ match __dbschema self with
        | Some dbschema => dbschema
        | None => "None"
        end +:+ ">".

(** The loop of [tables]. *)
Fixpoint collect (prefix : string) (names : list string) : list string :=
  match names with
  | [] => []
  | table :: names' =>
      if startswith table prefix
      then replace_first table prefix EmptyString :: collect prefix names'
      else collect prefix names'
  end.

(** The property [tables]. *)
Definition tables : M (list string) :=
  self <- get ;;
  match __tables self with
  | None =>
      let tables := collect (__prefix self) (Engine.table_names (__engine self)) in
      set_tables (Some tables) ;;;
      ret tables
  | Some tables => ret tables
  end.

Definition check (table : string) : M bool :=
  tables <- tables ;;
  ret (bool_decide (table ∈ tables)).

(** The [mapping] of [__convert_schema]. *)
Definition convert_mapping (type : string) : option sqltype :=
  if String.eqb type "string" then Some Text
  else if String.eqb type "integer" then Some Integer
  else if String.eqb type "number" then Some Float
  else if String.eqb type "boolean" then Some Boolean
  else None.

Definition convert_field (field : Field) : result Column :=
  match convert_mapping (field_type field) with
  | Some column_type => Ok (mkColumn (field_name field) column_type)
  | None => Raise (TypeError ("Type " +:+ field_type field +:+ " is not supported"))
  end.

Definition convert_schema (schema : Schema) : result (list Column) :=
  rmap convert_field (fields schema).

(** The [mapping] of [__restore_schema], keyed by the class of the type. *)
Definition restore_mapping (type : sqltype) : option string :=
  match type with
  | TEXT => Some "string"
  | INTEGER => Some "integer"
  | FLOAT => Some "number"
  | BOOLEAN => Some "boolean"
  | _ => None
  end.

Definition restore_column (column : Column) : result Field :=
  match restore_mapping (column_type column) with
  | Some field_type => Ok (mkField (column_name column) field_type)
  | None => Raise (TypeError ("Type " +:+ sqltype_str (column_type column) +:+ " is not supported"))
  end.

Definition restore_schema (dbtable : list Column) : result Schema :=
  rbind (rmap restore_column dbtable) (fun fields => Ok (mkSchema fields)).

Definition create (table : string) (schema : Schema) : M unit :=
  existent <- check table ;;
  if (existent : bool)
  then raise (RuntimeError ("Table " +:+ dq +:+ table +:+ dq +:+ " is already existent."))
  else
    columns <- lift (convert_schema schema) ;;
    self <- get ;;
    let name := __prefix self +:+ table in
    engine <- lift (Engine.create_table (__engine self) name columns) ;;
    set_engine engine ;;;
    set_tables None.

Definition delete (table : string) : M unit :=
  existent <- check table ;;
  if negb existent
  then
    self <- get ;;
    raise (RuntimeError ("Table " +:+ dq +:+ repr self +:+ dq +:+ " is not existent."))
  else
    self <- get ;;
    let name := __prefix self +:+ table in
    engine <- lift (Engine.drop_table (__engine self) name) ;;
    set_engine engine ;;;
    set_tables None.

Definition describe (table : string) : M Schema :=
  self <- get ;;
  let table := __prefix self +:+ table in
  dbtable <- lift (Engine.reflect (__engine self) table) ;;
  lift (restore_schema dbtable).

Definition read (table : string) : M (list (list pyval)) :=
  self <- get ;;
  let table := __prefix self +:+ table in
  lift (Engine.reflect (__engine self) table) ;;;
  lift (Engine.execute_select (__engine self) table).

(** The inner loop of [write]: [rdata[field['name']] = row[index]] for each
    field of the model, by index. *)
Fixpoint fill (model_fields : list Field) (index : nat) (row : list pyval)
    (rdata : record) : result record :=
  match model_fields with
  | [] => Ok rdata
  | field :: model_fields' =>
      match row !! index with
      | Some value => fill model_fields' (S index) row (<[field_name field := value]> rdata)
      | None => Raise IndexError
      end
  end.

(** The body of the outer loop of [write], for one row. *)
Definition convert `{RowCaster} (model_fields : list Field) (row : rawrow) : result record :=
  rbind (convert_row model_fields (unpack row)) (fun row => fill model_fields 0 row ∅).

Definition write `{RowCaster} (table : string) (data : list rawrow) : M unit :=
  schema <- describe table ;;
  cdata <- lift (rmap (convert (fields schema)) data) ;;
  self <- get ;;
  let table := __prefix self +:+ table in
  lift (Engine.reflect (__engine self) table) ;;;
  engine <- lift (Engine.execute_insert (__engine self) table cdata) ;;
  set_engine engine.

End Storage.

(** The store-visible name of a table of the handle. *)
Definition store_name (self : Storage.t) (table : string) : string :=
  Storage.__prefix self +:+ table.

(** The handle's cache is coherent with the store when it is empty or lists
    exactly the tables that the store has under the prefix.  A new handle
    is coherent, and the methods keep the handle so. *)
Definition coherent (self : Storage.t) : Prop :=
  match Storage.__tables self with
  | None => True
  | Some tables =>
      forall table,
        table ∈ tables <->
        is_Some (Engine.catalog (Storage.__engine self) !! store_name self table)
  end.

(** The rows stored under a store-visible name. *)
Definition stored_rows (e : Engine.t) (name : string) : option (list record) :=
  Engine.rows <$> Engine.catalog e !! name.

(** The logical types of the mapping. *)
Definition supported_types : list string := ["string"; "integer"; "number"; "boolean"].

(** A dialect that reflects a column of a generic type with the SQL
    standard type of the same name, as SQLite does. *)
Definition standard_dialect (reflected : sqltype -> sqltype) : Prop :=
  reflected Text = TEXT /\ reflected Integer = INTEGER /\
  reflected Float = FLOAT /\ reflected Boolean = BOOLEAN.

(** The listing that the handle goes by: the cached one, or else the one
    that the store gives now; and the handle once it has read its listing. *)
Definition listing (self : Storage.t) : list string :=
  match Storage.__tables self with
  | Some tables => tables
  | None => Storage.collect (Storage.__prefix self) (Engine.table_names (Storage.__engine self))
  end.

Definition cached (self : Storage.t) : Storage.t :=
  Storage.mkStorage (Storage.__engine self) (Storage.__dbschema self)
    (Storage.__prefix self) (Some (listing self)).

(** ** The row codec of the specification

    The record that section 4.5 of the specification describes, stated
    from its words to compare [Storage.convert] with: positional input is
    zipped against the schema field order, keyed input gives the value
    under each field name, and the values are cast by the caster. *)

Module RowCodec.





End RowCodec.

(** ** The key projection of the specification

    The projection of a cast record on a key set, in the words of the
    specification (section 4.6, step 2): the values of the record under the
    names of the key set.  [Storage.write] has no key set; the projection
    serves to state what it does with a row whose key a stored row has. *)
Definition key_projection (keys : list string) (row : record) : list (option pyval) :=
  map (fun name => row !! name) keys.

(** ** A row caster

    A caster in the manner of the schema library, to run the methods on
    concrete rows: a text casts to [string]; an int or a text of decimal
    digits casts to [integer]; a number or an int casts to [number]; a bool
    or one of the texts [true] and [false] casts to [boolean]; a row needs
    one value per field. *)

Module SimpleCaster.

Fixpoint digits (s : string) (acc : Z) : option Z :=
  match s with
  | EmptyString => Some acc
  | String c s' =>
      let n := Z.of_nat (nat_of_ascii c) in
      if ((48 <=? n) && (n <=? 57))%Z then digits s' (10 * acc + (n - 48))%Z else None
  end.

Definition parse_int (s : string) : option Z :=
  match s with
  | EmptyString => None
  | String "-" (String c s') => Z.opp <$> digits (String c s') 0
  | _ => digits s 0
  end.

Definition cast_error (type : string) : exn :=
  ConversionError ("value is not of type " +:+ type).

Definition cast_value (type : string) (value : pyval) : result pyval :=
  if String.eqb type "string" then
    match value with PyText _ => Ok value | _ => Raise (cast_error type) end
  else if String.eqb type "integer" then
    match value with
    | PyInt _ => Ok value
    | PyText s => from_option (fun z => Ok (PyInt z)) (Raise (cast_error type)) (parse_int s)
    | _ => Raise (cast_error type)
    end
  else if String.eqb type "number" then
    match value with
    | PyNum _ _ => Ok value
    | PyInt z => Ok (PyNum z 0)
    | _ => Raise (cast_error type)
    end
  else if String.eqb type "boolean" then
    match value with
    | PyBool _ => Ok value
    | PyText s =>
        if String.eqb s "true" then Ok (PyBool true)
        else if String.eqb s "false" then Ok (PyBool false)
        else Raise (cast_error type)
    | _ => Raise (cast_error type)
    end
  else Raise (cast_error type).

Fixpoint cast_row (schema_fields : list Field) (values : list pyval) : result (list pyval) :=
  match schema_fields, values with
  | [], [] => Ok []
  | field :: schema_fields', value :: values' =>
      rbind (cast_value (field_type field) value) (fun c =>
      rbind (cast_row schema_fields' values') (fun cs => Ok (c :: cs)))
  | _, _ => Raise (ConversionError "the row does not match the fields")
  end.

End SimpleCaster.

(** ** Sample data *)

Module Sample.

Definition sqlite_dialect (type : sqltype) : sqltype :=
  match type with
  | Text => TEXT
  | Integer => INTEGER
  | Float => FLOAT
  | Boolean => BOOLEAN
  | _ => type
  end.

Definition people : Schema :=
  mkSchema [mkField "id" "integer"; mkField "name" "string"].

(** A store with the tables [test_people], [test_legacy] (a column of a
    type outside the mapping) and [other]. *)
Definition engine : Engine.t :=
  Engine.mkEngine "Engine(sqlite://)" sqlite_dialect []
    (<["test_people" :=
         Engine.mkTable [mkColumn "id" Integer; mkColumn "name" Text]
           [{["id" := PyInt 1; "name" := PyText "ann"]}]]>
     (<["test_legacy" :=
         Engine.mkTable [mkColumn "id" Integer; mkColumn "born" (OtherType "DATE")] []]>
      (<["other" := Engine.mkTable [mkColumn "id" Integer] []]> ∅))).

Definition storage : Storage.t := Storage.init engine None "test_".

(** The row that [test_people] holds, and a row of the same [id]. *)
Definition ann : record := {["id" := PyInt 1; "name" := PyText "ann"]}.

Definition bob : record := {["id" := PyInt 1; "name" := PyText "bob"]}.

(** A dialect that reflects a [Float] column as a double precision type of
    its own, as PostgreSQL does, and an empty store of that dialect. *)
Definition postgres_dialect (type : sqltype) : sqltype :=
  match type with
  | Text => TEXT
  | Integer => INTEGER
  | Float => OtherType "DOUBLE PRECISION"
  | Boolean => BOOLEAN
  | _ => type
  end.

Definition postgres_engine : Engine.t :=
  Engine.mkEngine "Engine(postgresql://)" postgres_dialect [] ∅.

Definition measures : Schema := mkSchema [mkField "value" "number"].

End Sample.

(** * Properties *)

(** ** Strings *)

Section Strings.

Import PyStr.

Lemma append_cons (a : ascii) (s t : string) : String a s +:+ t = String a (s +:+ t).
Proof. reflexivity. Qed.

Lemma append_empty (t : string) : EmptyString +:+ t = t.
Proof. reflexivity. Qed.

Lemma startswith_append (p t : string) : startswith (p +:+ t) p = true.
Proof.
  induction p as [|a p IH]; simpl; [reflexivity|].
  now rewrite Ascii.eqb_refl.
Qed.

Lemma drop_append (p t : string) : drop (String.length p) (p +:+ t) = t.
Proof.
  induction p as [|a p IH]; [reflexivity|].
  rewrite append_cons. exact IH.
Qed.

Lemma startswith_split (s p : string) :
  startswith s p = true -> s = p +:+ drop (String.length p) s.
Proof.
  revert s; induction p as [|a p IH]; intros s H; simpl in *; [reflexivity|].
  destruct s as [|b s]; [discriminate|].
  destruct (Ascii.eqb a b) eqn:E; [|discriminate].
  apply Ascii.eqb_eq in E; subst b.
  rewrite append_cons. simpl. f_equal. now apply IH.
Qed.

Lemma startswith_iff (s p : string) :
  startswith s p = true <-> exists t, s = p +:+ t.
Proof.
  split.
  - intros H. eexists. now apply startswith_split.
  - intros [t ->]. apply startswith_append.
Qed.

Lemma append_inj_r (p t1 t2 : string) : p +:+ t1 = p +:+ t2 -> t1 = t2.
Proof.
  induction p as [|a p IH]; [auto|].
  rewrite !append_cons. intros [= H]. auto.
Qed.

(** With [s] starting with [old], the leftmost occurrence of [old] is the
    leading one: replacing it by the empty string strips the prefix. *)
Lemma replace_first_leading (s old : string) :
  startswith s old = true -> replace_first s old EmptyString = drop (String.length old) s.
Proof. intros H. destruct s; simpl; now rewrite H. Qed.

Lemma replace_first_append (p t : string) :
  replace_first (p +:+ t) p EmptyString = t.
Proof.
  rewrite replace_first_leading by apply startswith_append.
  apply drop_append.
Qed.

End Strings.

(** ** The table listing *)

Section Listing.

Import PyStr Storage.

Lemma collect_spec (prefix : string) (names : list string) :
  map (String.append prefix) (collect prefix names)
  = filter (fun n => Is_true (startswith n prefix)) names.
Proof.
  induction names as [|n names IH]; [reflexivity|].
  simpl. rewrite filter_cons.
  destruct (startswith n prefix) eqn:E; simpl.
  - rewrite IH. f_equal.
    rewrite replace_first_leading by assumption.
    symmetry. now apply startswith_split.
  - exact IH.
Qed.

Lemma elem_of_collect (prefix : string) (names : list string) (table : string) :
  table ∈ collect prefix names <-> prefix +:+ table ∈ names.
Proof.
  induction names as [|n names IH]; simpl.
  - split; intros H; inversion H.
  - destruct (startswith n prefix) eqn:E.
    + rewrite !elem_of_cons, IH.
      rewrite replace_first_leading by assumption.
      apply startswith_split in E.
      split; (intros [H|H]; [left|right; assumption]).
      * rewrite E, H at 1. reflexivity.
      * rewrite E in H. now apply append_inj_r in H.
    + rewrite elem_of_cons, IH.
      split; [auto|].
      intros [H|H]; [|assumption].
      rewrite <- H, startswith_append in E. discriminate.
Qed.

Lemma elem_of_table_names (e : Engine.t) (name : string) :
  name ∈ Engine.table_names e <-> is_Some (Engine.catalog e !! name).
Proof.
  unfold Engine.table_names.
  rewrite list_elem_of_fmap. split.
  - intros [[n tb] [-> H]]. apply elem_of_map_to_list in H. simpl. eauto.
  - intros [tb H]. exists (name, tb). split; [reflexivity|].
    now apply elem_of_map_to_list.
Qed.

End Listing.

Section ListingCached.

Import Storage.

(** C8. With an empty cache, [tables] lists exactly the store names that
    start with the prefix, each without its leading prefix (putting the
    prefix back gives the store names that start with it, one for one and in
    the store's order; a name is listed exactly when the prefix followed by
    it is a store name), leaves the store alone and caches the listing: the
    next reads return the cached listing, whatever the store holds by
    then. *)
Theorem tables_lists_prefixed_names (self : Storage.t) :
  __tables self = None ->
  exists listing self',
    tables self = (Ok listing, self') /\
    map (String.append (__prefix self)) listing
      = filter (fun name => Is_true (PyStr.startswith name (__prefix self)))
          (Engine.table_names (__engine self)) /\
    (forall table, table ∈ listing <-> store_name self table ∈ Engine.table_names (__engine self)) /\
    __engine self' = __engine self /\
    __tables self' = Some listing /\
    (forall engine',
        let later := mkStorage engine' (__dbschema self') (__prefix self') (__tables self') in
        tables later = (Ok listing, later)).
Proof.
  intros Hnone.
  exists (collect (__prefix self) (Engine.table_names (__engine self))).
  eexists. split.
  - unfold tables, bind, get. rewrite Hnone. reflexivity.
  - simpl. split; [apply collect_spec|].
    split; [intros table; apply elem_of_collect|].
    repeat split.
Qed.

Lemma tables_lists_prefixed_names_witness :
  exists self',
    Storage.tables Sample.storage = (Ok ["legacy"; "people"], self') /\
    Storage.__tables self' = Some ["legacy"; "people"].
Proof.
  destruct (tables_lists_prefixed_names Sample.storage eq_refl)
    as (listing & self' & Hrun & _ & _ & _ & Hcache & _).
  exists self'.
  vm_compute in Hrun. injection Hrun as <- <-.
  split; reflexivity.
Defined.

End ListingCached.

(** A closed decidable proposition, by evaluation. *)
Ltac by_evaluation := apply (bool_decide_unpack _); vm_compute; exact I.

(** ** Loops that stop at the first exception *)

Section Rmap.

Context {A B : Type} (f : A -> result B).

Lemma rmap_ok (l : list A) (ys : list B) :
  rmap f l = Ok ys <-> Forall2 (fun x y => f x = Ok y) l ys.
Proof.
  revert ys; induction l as [|x l IH]; intros ys; simpl.
  - split.
    + intros [= <-]. constructor.
    + intros H. inversion H. reflexivity.
  - destruct (f x) as [y|e] eqn:Ex; simpl.
    + destruct (rmap f l) as [ys'|e] eqn:El; simpl.
      * split.
        -- intros [= <-]. constructor; [assumption|]. now apply IH.
        -- intros H. inversion H as [|? y0 ? ys0 Hy Hys]; subst.
           rewrite Ex in Hy. injection Hy as <-.
           apply IH in Hys. now injection Hys as <-.
      * split; [discriminate|].
        intros H. inversion H as [|? y0 ? ys0 Hy Hys]; subst.
        apply IH in Hys. discriminate.
    + split; [discriminate|].
      intros H. inversion H as [|? y0 ? ys0 Hy Hys]; subst. congruence.
Qed.

(** The exception of the loop is the one of the first item that raises. *)
Lemma rmap_raise (pre post : list A) (bad : A) (e : exn) :
  Forall (fun x => exists y, f x = Ok y) pre ->
  f bad = Raise e ->
  rmap f (pre ++ bad :: post) = Raise e.
Proof.
  intros Hpre Hbad. induction Hpre as [|x pre [y Hy] _ IH]; simpl.
  - now rewrite Hbad.
  - now rewrite Hy, IH.
Qed.

Lemma first_raise (l : list A) :
  Exists (fun x => exists e, f x = Raise e) l ->
  exists pre bad post e,
    l = pre ++ bad :: post /\
    Forall (fun x => exists y, f x = Ok y) pre /\
    f bad = Raise e.
Proof.
  induction l as [|x l IH]; intros H; [inversion H|].
  destruct (f x) as [y|e] eqn:Ex.
  - inversion H as [? ? [e He]|? ? Hl]; subst; [congruence|].
    destruct (IH Hl) as (pre & bad & post & e & -> & Hpre & Hbad).
    exists (x :: pre), bad, post, e. repeat split; eauto.
  - exists [], x, l, e. repeat split; eauto.
Qed.

End Rmap.

(** ** The type mapping *)

Section TypeMapping.

Import Storage.

Lemma convert_mapping_Some (type : string) (native : sqltype) :
  convert_mapping type = Some native <->
  (type = "string" /\ native = Text) \/ (type = "integer" /\ native = Integer) \/
  (type = "number" /\ native = Float) \/ (type = "boolean" /\ native = Boolean).
Proof.
  unfold convert_mapping. split.
  - repeat match goal with
           | |- context [String.eqb type ?lit] =>
               let E := fresh "E" in
               destruct (String.eqb type lit) eqn:E;
               [apply String.eqb_eq in E; intros [= <-]; tauto|]
           end.
    discriminate.
  - intros [[-> ->] | [[-> ->] | [[-> ->] | [-> ->]]]]; reflexivity.
Qed.

Lemma supported_types_spec (type : string) :
  type ∈ supported_types <->
  type = "string" \/ type = "integer" \/ type = "number" \/ type = "boolean".
Proof.
  unfold supported_types. rewrite !elem_of_cons, elem_of_nil. tauto.
Qed.

Lemma convert_mapping_supported (type : string) :
  is_Some (convert_mapping type) <-> type ∈ supported_types.
Proof.
  rewrite supported_types_spec. split.
  - intros [native H]. apply convert_mapping_Some in H. tauto.
  - intros [-> | [-> | [-> | ->]]]; eexists; reflexivity.
Qed.

Lemma convert_mapping_None (type : string) :
  convert_mapping type = None <-> type ∉ supported_types.
Proof.
  rewrite <- convert_mapping_supported, <- eq_None_not_Some. reflexivity.
Qed.

Lemma restore_mapping_Some (native : sqltype) (type : string) :
  restore_mapping native = Some type <->
  (native = TEXT /\ type = "string") \/ (native = INTEGER /\ type = "integer") \/
  (native = FLOAT /\ type = "number") \/ (native = BOOLEAN /\ type = "boolean").
Proof.
  split.
  - destruct native; simpl; intros [= <-]; tauto.
  - intros [[-> ->] | [[-> ->] | [[-> ->] | [-> ->]]]]; reflexivity.
Qed.

Lemma reflected_restores (reflected : sqltype -> sqltype) :
  standard_dialect reflected ->
  forall type native,
    convert_mapping type = Some native -> restore_mapping (reflected native) = Some type.
Proof.
  intros (HT & HI & HF & HB) type native H.
  apply convert_mapping_Some in H.
  destruct H as [[-> ->] | [[-> ->] | [[-> ->] | [-> ->]]]];
    rewrite ?HT, ?HI, ?HF, ?HB; reflexivity.
Qed.

(** C2, as amended.  A supported logical type converts to a generic column
    type, and the type that a standard dialect reflects for it restores to
    the logical type; the logical types that convert are the four of the
    mapping; no two of them share a column type, no two native types share
    a logical type, and each native type of the reverse mapping is the
    reflection of the column type of its logical type. *)
Theorem mapping_round_trips_through_reflection (reflected : sqltype -> sqltype) :
  standard_dialect reflected ->
  (forall type, type ∈ supported_types ->
     exists native, convert_mapping type = Some native /\
                    restore_mapping (reflected native) = Some type) /\
  (forall type, is_Some (convert_mapping type) <-> type ∈ supported_types) /\
  (forall type1 type2 native,
     convert_mapping type1 = Some native -> convert_mapping type2 = Some native ->
     type1 = type2) /\
  (forall native1 native2 type,
     restore_mapping native1 = Some type -> restore_mapping native2 = Some type ->
     native1 = native2) /\
  (forall native type, restore_mapping native = Some type ->
     exists generic, convert_mapping type = Some generic /\ reflected generic = native).
Proof.
  intros (HT & HI & HF & HB). repeat split.
  - intros type H. apply supported_types_spec in H.
    destruct H as [-> | [-> | [-> | ->]]]; eexists; (split; [reflexivity|]);
      rewrite ?HT, ?HI, ?HF, ?HB; reflexivity.
  - apply convert_mapping_supported.
  - apply convert_mapping_supported.
  - intros type1 type2 native H1 H2.
    apply convert_mapping_Some in H1, H2.
    destruct H1 as [[-> ->] | [[-> ->] | [[-> ->] | [-> ->]]]];
      destruct H2 as [[-> H] | [[-> H] | [[-> H] | [-> H]]]]; congruence.
  - intros native1 native2 type H1 H2.
    apply restore_mapping_Some in H1, H2.
    destruct H1 as [[-> ->] | [[-> ->] | [[-> ->] | [-> ->]]]];
      destruct H2 as [[-> H] | [[-> H] | [[-> H] | [-> H]]]]; congruence.
  - intros native type H. apply restore_mapping_Some in H.
    destruct H as [[-> ->] | [[-> ->] | [[-> ->] | [-> ->]]]]; eexists; (split; [reflexivity|]);
      assumption.
Qed.

Lemma mapping_round_trips_through_reflection_witness :
  exists native, Storage.convert_mapping "number" = Some native /\
                 Storage.restore_mapping (Sample.sqlite_dialect native) = Some "number".
Proof.
  apply (mapping_round_trips_through_reflection Sample.sqlite_dialect).
  - repeat split.
  - by_evaluation.
Defined.

(** C2, as stated, fails: the column type of [string] is an instance of
    [Text], and the reverse mapping has the class [TEXT] for a key, not
    [Text]. *)
Lemma round_trip_without_reflection_fails :
  "string" ∈ supported_types /\
  Storage.convert_mapping "string" = Some Text /\
  Storage.restore_mapping Text = None /\
  Storage.convert_mapping "string" ≫= Storage.restore_mapping <> Some "string".
Proof.
  split; [apply supported_types_spec; auto|].
  repeat split. discriminate.
Qed.

End TypeMapping.

(** ** The table lifecycle *)

Section Lifecycle.

Import Storage.

Lemma tables_run (self : Storage.t) :
  tables self = (Ok (listing self), cached self).
Proof.
  unfold tables, bind, get, listing, cached.
  destruct self as [engine dbschema prefix [cache|]]; reflexivity.
Qed.

Lemma check_run (self : Storage.t) (table : string) :
  check table self = (Ok (bool_decide (table ∈ listing self)), cached self).
Proof. unfold check, bind. now rewrite tables_run. Qed.

Lemma listing_coherent (self : Storage.t) (table : string) :
  coherent self ->
  table ∈ listing self <-> is_Some (Engine.catalog (__engine self) !! store_name self table).
Proof.
  unfold coherent, listing. intros H.
  destruct (__tables self) as [cache|]; [apply H|].
  rewrite <- elem_of_table_names. apply elem_of_collect.
Qed.

Lemma cached_coherent (self : Storage.t) : coherent self -> coherent (cached self).
Proof.
  intros H. unfold coherent; simpl. intros table.
  exact (listing_coherent self table H).
Qed.

Lemma init_coherent (engine : Engine.t) (dbschema : option string) (prefix : string) :
  coherent (init engine dbschema prefix).
Proof. exact I. Qed.

(** What [create] does, case by case. *)
Lemma create_run (self : Storage.t) (table : string) (schema : Schema) :
  create table schema self =
  if bool_decide (table ∈ listing self)
  then (Raise (RuntimeError ("Table " +:+ PyStr.dq +:+ table +:+ PyStr.dq
                               +:+ " is already existent.")), cached self)
  else match convert_schema schema with
       | Raise e => (Raise e, cached self)
       | Ok columns =>
           match Engine.create_table (__engine self) (store_name self table) columns with
           | Raise e => (Raise e, cached self)
           | Ok engine => (Ok tt, mkStorage engine (__dbschema self) (__prefix self) None)
           end
       end.
Proof.
  unfold create, bind. rewrite check_run.
  destruct (bool_decide (table ∈ listing self)); [reflexivity|].
  unfold lift. destruct (convert_schema schema) as [columns|e]; [|reflexivity].
  unfold get, cached, store_name; simpl.
  destruct (Engine.create_table _ _ _); reflexivity.
Qed.

(** What [delete] does, case by case. *)
Lemma delete_run (self : Storage.t) (table : string) :
  delete table self =
  if bool_decide (table ∈ listing self)
  then match Engine.drop_table (__engine self) (store_name self table) with
       | Raise e => (Raise e, cached self)
       | Ok engine => (Ok tt, mkStorage engine (__dbschema self) (__prefix self) None)
       end
  else (Raise (RuntimeError ("Table " +:+ PyStr.dq +:+ repr self +:+ PyStr.dq
                               +:+ " is not existent.")), cached self).
Proof.
  unfold delete, bind. rewrite check_run.
  destruct (bool_decide (table ∈ listing self)); simpl; [|reflexivity].
  unfold lift, get, cached, store_name; simpl.
  destruct (Engine.drop_table _ _); reflexivity.
Qed.

(** What [describe] does, case by case. *)
Lemma describe_run (self : Storage.t) (table : string) :
  describe table self =
  (rbind (Engine.reflect (__engine self) (store_name self table)) restore_schema, self).
Proof.
  unfold describe, bind, get, lift, store_name.
  destruct (Engine.reflect _ _); reflexivity.
Qed.

(** [create] and [delete] keep the handle coherent. *)
Lemma create_coherent (self : Storage.t) (table : string) (schema : Schema) :
  coherent self -> coherent (create table schema self).2.
Proof.
  intros H. rewrite create_run.
  destruct (bool_decide (table ∈ listing self)); [now apply cached_coherent|].
  destruct (convert_schema schema); [|now apply cached_coherent].
  destruct (Engine.create_table _ _ _); [exact I|now apply cached_coherent].
Qed.

Lemma delete_coherent (self : Storage.t) (table : string) :
  coherent self -> coherent (delete table self).2.
Proof.
  intros H. rewrite delete_run.
  destruct (bool_decide (table ∈ listing self)); [|now apply cached_coherent].
  destruct (Engine.drop_table _ _); [exact I|now apply cached_coherent].
Qed.

(** C3. On a handle whose cache is coherent with the store: [create] of a
    table that the store has raises the already-existent error; [delete] of
    a table that the store lacks raises the not-existent error; [describe]
    of such a table raises the reflection's no-such-table error; and each
    of these calls leaves the store as it was. *)
Theorem existence_conflicts_raise (self : Storage.t) (table : string) (schema : Schema) :
  coherent self ->
  (is_Some (Engine.catalog (__engine self) !! store_name self table) ->
   exists self',
     create table schema self
       = (Raise (RuntimeError ("Table " +:+ PyStr.dq +:+ table +:+ PyStr.dq
                                 +:+ " is already existent.")), self') /\
     __engine self' = __engine self) /\
  (Engine.catalog (__engine self) !! store_name self table = None ->
   (exists message self',
      delete table self = (Raise (RuntimeError message), self') /\
      __engine self' = __engine self) /\
   describe table self = (Raise (NoSuchTableError (store_name self table)), self)).
Proof.
  intros Hco. split.
  - intros Hsome. exists (cached self). split; [|reflexivity].
    rewrite create_run.
    rewrite bool_decide_eq_true_2; [reflexivity|].
    now apply listing_coherent.
  - intros Hnone. split.
    + eexists _, (cached self). split; [|reflexivity].
      rewrite delete_run.
      rewrite bool_decide_eq_false_2; [reflexivity|].
      rewrite listing_coherent by assumption.
      rewrite Hnone. now intros [? ?].
    + rewrite describe_run. unfold Engine.reflect. now rewrite Hnone.
Qed.

Lemma existence_conflicts_raise_witness :
  (exists self',
     Storage.create "people" Sample.people Sample.storage
       = (Raise (RuntimeError ("Table " +:+ PyStr.dq +:+ "people" +:+ PyStr.dq
                                 +:+ " is already existent.")), self') /\
     Storage.__engine self' = Sample.engine) /\
  Storage.describe "missing" Sample.storage
    = (Raise (NoSuchTableError "test_missing"), Sample.storage).
Proof.
  split.
  - apply (existence_conflicts_raise Sample.storage "people" Sample.people I).
    vm_compute. eauto.
  - apply (existence_conflicts_raise Sample.storage "missing" Sample.people I).
    reflexivity.
Defined.

(** C10. The message of the error that [delete] raises for a table that is
    not listed interpolates the handle's [repr], so it is the same for every
    such table and does not tell which one was missing; the message of the
    error that [create] raises for a listed table interpolates the table. *)
Theorem delete_error_names_the_handle (self : Storage.t) (table other : string)
    (schema : Schema) :
  (table ∉ listing self ->
   exists self',
     delete table self
       = (Raise (RuntimeError ("Table " +:+ PyStr.dq +:+ repr self +:+ PyStr.dq
                                 +:+ " is not existent.")), self') /\
     (other ∉ listing self -> delete other self = delete table self)) /\
  (table ∈ listing self ->
   exists self',
     create table schema self
       = (Raise (RuntimeError ("Table " +:+ PyStr.dq +:+ table +:+ PyStr.dq
                                 +:+ " is already existent.")), self')).
Proof.
  split.
  - intros Hnot. exists (cached self). split.
    + rewrite delete_run. now rewrite bool_decide_eq_false_2.
    + intros Hother. rewrite !delete_run.
      now rewrite !bool_decide_eq_false_2.
  - intros Hin. exists (cached self).
    rewrite create_run. now rewrite bool_decide_eq_true_2.
Qed.

Lemma delete_error_names_the_handle_witness :
  (exists self',
     Storage.delete "missing" Sample.storage
       = (Raise (RuntimeError ("Table " +:+ PyStr.dq +:+ "Storage <Engine(sqlite://)/None>"
                                 +:+ PyStr.dq +:+ " is not existent.")), self') /\
     Storage.delete "absent" Sample.storage = Storage.delete "missing" Sample.storage) /\
  (exists self',
     Storage.create "people" Sample.people Sample.storage
       = (Raise (RuntimeError ("Table " +:+ PyStr.dq +:+ "people" +:+ PyStr.dq
                                 +:+ " is already existent.")), self')).
Proof.
  split.
  - destruct (delete_error_names_the_handle Sample.storage "missing" "absent" Sample.people)
      as [Hdelete _].
    destruct Hdelete as (self' & Hrun & Hsame);
      [by_evaluation|].
    exists self'. split; [exact Hrun|].
    apply Hsame. by_evaluation.
  - apply (delete_error_names_the_handle Sample.storage "people" "absent" Sample.people).
    by_evaluation.
Defined.

(** C4. [create] and [delete], when they return, have emptied the cache of
    the listing, and the [check] of the same table that follows reads the
    store anew: it gives true after [create] and false after [delete]. *)
Theorem mutation_invalidates_cache (self self' : Storage.t) (table : string) (schema : Schema) :
  (create table schema self = (Ok tt, self') ->
   __tables self' = None /\ fst (check table self') = Ok true) /\
  (delete table self = (Ok tt, self') ->
   __tables self' = None /\ fst (check table self') = Ok false).
Proof.
  split.
  - rewrite create_run.
    destruct (bool_decide (table ∈ listing self)); [discriminate|].
    destruct (convert_schema schema) as [columns|e]; [|discriminate].
    unfold Engine.create_table.
    destruct (Engine.catalog (__engine self) !! store_name self table) eqn:E; [discriminate|].
    intros [= <-]. split; [reflexivity|].
    rewrite check_run. simpl. f_equal.
    apply bool_decide_eq_true_2.
    unfold listing; simpl. apply elem_of_collect, elem_of_table_names; simpl.
    unfold store_name. rewrite lookup_insert_eq. eauto.
  - rewrite delete_run.
    destruct (bool_decide (table ∈ listing self)); [|discriminate].
    unfold Engine.drop_table.
    destruct (Engine.catalog (__engine self) !! store_name self table) eqn:E; [|discriminate].
    intros [= <-]. split; [reflexivity|].
    rewrite check_run. simpl. f_equal.
    apply bool_decide_eq_false_2.
    unfold listing; simpl. rewrite elem_of_collect, elem_of_table_names; simpl.
    unfold store_name. rewrite lookup_delete_eq. now intros [? ?].
Qed.

Lemma mutation_invalidates_cache_witness :
  (exists self',
     Storage.create "articles" Sample.people Sample.storage = (Ok tt, self') /\
     Storage.__tables self' = None /\ fst (Storage.check "articles" self') = Ok true) /\
  (exists self',
     Storage.delete "people" Sample.storage = (Ok tt, self') /\
     Storage.__tables self' = None /\ fst (Storage.check "people" self') = Ok false).
Proof.
  split.
  - eexists. split; [vm_compute; reflexivity|].
    eapply mutation_invalidates_cache with (self := Sample.storage) (schema := Sample.people).
    vm_compute; reflexivity.
  - eexists. split; [vm_compute; reflexivity|].
    eapply mutation_invalidates_cache with (self := Sample.storage) (schema := Sample.people).
    vm_compute; reflexivity.
Defined.

(** A schema of supported types converts, column by column. *)
Lemma convert_schema_supported (schema : Schema) :
  Forall (fun field => field_type field ∈ supported_types) (fields schema) ->
  exists columns,
    convert_schema schema = Ok columns /\
    Forall2 (fun field column =>
               column_name column = field_name field /\
               convert_mapping (field_type field) = Some (column_type column))
            (fields schema) columns.
Proof.
  unfold convert_schema. induction 1 as [|field l Hf _ (columns & IH1 & IH2)]; simpl.
  - eexists. split; [reflexivity|constructor].
  - apply convert_mapping_supported in Hf as [native Hn].
    unfold convert_field at 1. rewrite Hn. simpl. rewrite IH1. simpl.
    eexists. split; [reflexivity|].
    constructor; [split; [reflexivity|assumption]|assumption].
Qed.

(** The columns of a converted schema, reflected by a standard dialect,
    restore to the schema. *)
Lemma restore_converted (reflected : sqltype -> sqltype) (l : list Field) (columns : list Column) :
  standard_dialect reflected ->
  Forall2 (fun field column =>
             column_name column = field_name field /\
             convert_mapping (field_type field) = Some (column_type column))
          l columns ->
  rmap restore_column
       (map (fun c => mkColumn (column_name c) (reflected (column_type c))) columns)
  = Ok l.
Proof.
  intros Hstd. induction 1 as [|field column l columns [Hname Htype] _ IH]; simpl.
  - reflexivity.
  - rewrite IH. unfold restore_column; simpl.
    rewrite (reflected_restores reflected Hstd _ _ Htype).
    simpl. rewrite Hname. now destruct field.
Qed.

(** C5, as amended.  Over a store whose dialect reflects the generic column
    types by the SQL standard types, when [create] returns for a schema of
    unique field names (its types are then all in the mapping), the
    [describe] of the table that follows gives the schema back: the same
    fields, in the same order, each with its logical type. *)
Theorem create_then_describe (self self' : Storage.t) (table : string) (schema : Schema) :
  standard_dialect (Engine.reflected_type (__engine self)) ->
  NoDup (map field_name (fields schema)) ->
  create table schema self = (Ok tt, self') ->
  Forall (fun field => field_type field ∈ supported_types) (fields schema) /\
  describe table self' = (Ok schema, self').
Proof.
  intros Hstd _. rewrite create_run.
  destruct (bool_decide (table ∈ listing self)); [discriminate|].
  destruct (convert_schema schema) as [columns|e] eqn:Hconv; [|discriminate].
  unfold Engine.create_table.
  destruct (Engine.catalog (__engine self) !! store_name self table) eqn:Hnone; [discriminate|].
  intros [= <-].
  assert (Hsup : Forall (fun field => field_type field ∈ supported_types) (fields schema)).
  { unfold convert_schema in Hconv. apply rmap_ok in Hconv.
    clear -Hconv. induction Hconv as [|field column l columns Hfc _ IH]; constructor; [|exact IH].
    unfold convert_field in Hfc.
    apply convert_mapping_supported.
    destruct (convert_mapping (field_type field)); [eauto|discriminate]. }
  split; [exact Hsup|].
  destruct (convert_schema_supported schema Hsup) as (columns' & Hconv' & Hcols).
  rewrite Hconv in Hconv'. injection Hconv' as <-.
  rewrite describe_run. unfold Engine.reflect, store_name; simpl.
  rewrite lookup_insert_eq; simpl.
  unfold restore_schema.
  rewrite (restore_converted _ _ _ Hstd Hcols). simpl.
  now destruct schema.
Qed.

Lemma create_then_describe_witness :
  exists self',
    Storage.create "articles" Sample.people Sample.storage = (Ok tt, self') /\
    Storage.describe "articles" self' = (Ok Sample.people, self').
Proof.
  set (self1 := (Storage.create "articles" Sample.people Sample.storage).2).
  assert (Hrun : Storage.create "articles" Sample.people Sample.storage = (Ok tt, self1)).
  { vm_compute. reflexivity. }
  exists self1. split; [exact Hrun|].
  apply (create_then_describe Sample.storage self1 "articles" Sample.people).
  - repeat split.
  - by_evaluation.
  - exact Hrun.
Defined.

(** C5, as stated, fails over a store of another dialect: a [number] field
    is created as a [Float] column, the dialect reflects it as a double
    precision type, which the reverse mapping lacks, and [describe] raises
    where the claim has it give the schema back. *)
Lemma create_then_describe_fails_on_other_dialect :
  Forall (fun field => field_type field ∈ supported_types) (fields Sample.measures) /\
  exists self',
    Storage.create "measures" Sample.measures
      (Storage.init Sample.postgres_engine None EmptyString) = (Ok tt, self') /\
    Storage.describe "measures" self'
      = (Raise (TypeError "Type DOUBLE PRECISION is not supported"), self') /\
    fst (Storage.describe "measures" self') <> Ok Sample.measures.
Proof.
  split; [by_evaluation|].
  eexists. split; [vm_compute; reflexivity|].
  split; [vm_compute; reflexivity|].
  vm_compute. discriminate.
Qed.

(** The first field of an unsupported type decides what [__convert_schema]
    raises. *)
Lemma convert_schema_unsupported (schema : Schema) (field : Field) :
  field ∈ fields schema -> field_type field ∉ supported_types ->
  exists bad,
    bad ∈ fields schema /\ (field_type bad ∉ supported_types) /\
    convert_schema schema
      = Raise (TypeError ("Type " +:+ field_type bad +:+ " is not supported")).
Proof.
  intros Hin Hnot.
  destruct (first_raise convert_field (fields schema)) as (pre & bad & post & e & Hl & Hpre & Hbad).
  { apply Exists_exists. exists field. split; [assumption|].
    apply convert_mapping_None in Hnot.
    unfold convert_field. rewrite Hnot. eauto. }
  unfold convert_field in Hbad.
  destruct (convert_mapping (field_type bad)) eqn:E; [discriminate|].
  injection Hbad as <-.
  exists bad. split; [rewrite Hl, elem_of_app, elem_of_cons; auto|].
  split; [now apply convert_mapping_None|].
  unfold convert_schema. rewrite Hl.
  apply rmap_raise; [assumption|].
  unfold convert_field. now rewrite E.
Qed.

(** C6. [create] of a table that is not listed, from a schema with a field
    of a type outside the mapping, raises the type error that names such a
    type of the schema (the first one), and leaves the store as it was;
    [describe] of a table with a reflected column of a type outside the
    reverse mapping raises the type error for such a column (the first
    one): no schema is returned and no column is skipped. *)
Theorem unsupported_type_is_fatal (self : Storage.t) (table : string) :
  (forall schema field,
     table ∉ listing self ->
     field ∈ fields schema -> field_type field ∉ supported_types ->
     exists bad self',
       bad ∈ fields schema /\ (field_type bad ∉ supported_types) /\
       create table schema self
         = (Raise (TypeError ("Type " +:+ field_type bad +:+ " is not supported")), self') /\
       __engine self' = __engine self) /\
  (forall dbtable column,
     Engine.reflect (__engine self) (store_name self table) = Ok dbtable ->
     column ∈ dbtable -> restore_mapping (column_type column) = None ->
     exists bad,
       bad ∈ dbtable /\ restore_mapping (column_type bad) = None /\
       describe table self
         = (Raise (TypeError ("Type " +:+ sqltype_str (column_type bad)
                                +:+ " is not supported")), self)).
Proof.
  split.
  - intros schema field Hnot Hin Htype.
    destruct (convert_schema_unsupported schema field Hin Htype) as (bad & Hbad & Hty & Hconv).
    exists bad, (cached self). repeat split; try assumption.
    rewrite create_run, bool_decide_eq_false_2 by assumption.
    now rewrite Hconv.
  - intros dbtable column Hrefl Hin Htype.
    destruct (first_raise restore_column dbtable) as (pre & bad & post & e & Hl & Hpre & Hbad).
    { apply Exists_exists. exists column. split; [assumption|].
      unfold restore_column. rewrite Htype. eauto. }
    unfold restore_column in Hbad.
    destruct (restore_mapping (column_type bad)) eqn:E; [discriminate|].
    injection Hbad as <-.
    exists bad. split; [rewrite Hl, elem_of_app, elem_of_cons; auto|].
    split; [assumption|].
    rewrite describe_run, Hrefl. simpl. unfold restore_schema.
    rewrite Hl. erewrite rmap_raise; [reflexivity|assumption|].
    unfold restore_column. now rewrite E.
Qed.

Lemma unsupported_type_is_fatal_witness :
  (exists self',
     Storage.create "bad_type" (mkSchema [mkField "bad_field" "any"]) Sample.storage
       = (Raise (TypeError "Type any is not supported"), self') /\
     Storage.__engine self' = Sample.engine) /\
  Storage.describe "legacy" Sample.storage
    = (Raise (TypeError "Type DATE is not supported"), Sample.storage).
Proof.
  destruct (unsupported_type_is_fatal Sample.storage "bad_type") as [Hcreate _].
  destruct (unsupported_type_is_fatal Sample.storage "legacy") as [_ Hdescribe].
  split.
  - destruct (Hcreate (mkSchema [mkField "bad_field" "any"]) (mkField "bad_field" "any"))
      as (bad & self' & Hin & _ & Hrun & Heng); [by_evaluation..|].
    apply list_elem_of_singleton in Hin. subst bad.
    exists self'. split; assumption.
  - destruct (Hdescribe
                [mkColumn "id" INTEGER; mkColumn "born" (OtherType "DATE")]
                (mkColumn "born" (OtherType "DATE")))
      as (bad & Hin & Hty & Hrun); [reflexivity|by_evaluation|reflexivity|].
    apply elem_of_cons in Hin as [->|Hin]; [discriminate|].
    apply list_elem_of_singleton in Hin. subst bad. exact Hrun.
Defined.

End Lifecycle.

(** ** The write path *)

Section Write.

Import Storage.

Context `{caster : RowCaster}.

(** What [write] does, case by case. *)
Lemma write_run (self : Storage.t) (table : string) (data : list rawrow) :
  write table data self =
  match rbind (Engine.reflect (__engine self) (store_name self table)) restore_schema with
  | Raise e => (Raise e, self)
  | Ok schema =>
      match rmap (convert (fields schema)) data with
      | Raise e => (Raise e, self)
      | Ok cdata =>
          match Engine.execute_insert (__engine self) (store_name self table) cdata with
          | Raise e => (Raise e, self)
          | Ok engine =>
              (Ok tt, mkStorage engine (__dbschema self) (__prefix self) (__tables self))
          end
      end
  end.
Proof.
  unfold write, bind. rewrite describe_run.
  destruct (Engine.reflect (__engine self) (store_name self table)) as [dbtable|e] eqn:Er;
    simpl; [|reflexivity].
  destruct (restore_schema dbtable) as [schema|e]; [|reflexivity].
  destruct (rmap (convert (fields schema)) data) as [cdata|e]; [|reflexivity].
  fold (store_name self table). rewrite Er.
  destruct (Engine.execute_insert _ _ _); reflexivity.
Qed.

(** [write] keeps the handle coherent: it adds rows, not tables. *)
Lemma write_coherent (self : Storage.t) (table : string) (data : list rawrow) :
  coherent self -> coherent (write table data self).2.
Proof.
  intros H. rewrite write_run.
  destruct (rbind _ _) as [schema|e]; [|exact H].
  destruct (rmap _ _) as [cdata|e]; [|exact H].
  unfold Engine.execute_insert.
  destruct (Engine.catalog (__engine self) !! store_name self table) as [tb|] eqn:E;
    [|exact H].
  unfold coherent in *; simpl.
  destruct (__tables self) as [cache|]; [|exact I].
  intros other. rewrite (H other), lookup_insert_is_Some.
  unfold store_name; simpl. fold (store_name self table). fold (store_name self other).
  split.
  - intros Hsome. destruct (decide (store_name self table = store_name self other)); auto.
  - intros [<- | [_ Hsome]]; [eauto|assumption].
Qed.






End Write.




(** ** Rows of a stored key *)

Section WriteAppends.

Import Storage.

Context `{caster : RowCaster}.

(** C1, as amended.  [write] takes a table and a batch, no key set and no
    identity column, and returns nothing.  When it returns for a batch that
    is not empty, it has converted every row of the batch and executed one
    insert of all the converted rows: the rows that the table had are kept
    as they were, at the head, and a row is added for each row of the batch;
    this whatever the key set, also for a row with the key projection of a
    stored row, which stays as it was.  No stored row is updated and no
    outcome, updated flag or identity value is reported. *)
Theorem write_inserts_every_row (self self' : Storage.t) (table : string)
    (data : list rawrow) :
  write table data self = (Ok tt, self') ->
  data <> [] ->
  exists schema cdata old,
    describe table self = (Ok schema, self) /\
    rmap (convert (fields schema)) data = Ok cdata /\
    length cdata = length data /\
    Engine.execute_insert (__engine self) (store_name self table) cdata
      = Ok (__engine self') /\
    stored_rows (__engine self) (store_name self table) = Some old /\
    (exists added,
       stored_rows (__engine self') (store_name self table) = Some (old ++ added) /\
       length added = length data) /\
    (forall keys stored row,
       stored ∈ old -> row ∈ cdata ->
       key_projection keys stored = key_projection keys row ->
       exists rows,
         stored_rows (__engine self') (store_name self table) = Some rows /\
         stored ∈ rows /\
         length rows = length old + length data).
Proof.
  intros Hrun Hne. rewrite write_run in Hrun.
  destruct (rbind _ _) as [schema|e] eqn:Hdesc; [|discriminate].
  destruct (rmap (convert (fields schema)) data) as [cdata|e] eqn:Hmap; [|discriminate].
  destruct (Engine.execute_insert _ _ _) as [engine|e] eqn:Hins; [|discriminate].
  injection Hrun as <-.
  assert (Hlen : length cdata = length data).
  { apply rmap_ok in Hmap. symmetry. exact (Forall2_length _ _ _ Hmap). }
  unfold Engine.execute_insert in Hins.
  destruct (Engine.catalog (__engine self) !! store_name self table) as [tb|] eqn:Htb;
    [|discriminate].
  assert (Hadded : match cdata with
                   | [] => Engine.empty_insert (__engine self)
                   | _ :: _ => cdata
                   end = cdata).
  { destruct cdata; [|reflexivity]. destruct data; [congruence|discriminate]. }
  rewrite Hadded in Hins. injection Hins as <-.
  assert (Hafter : stored_rows
                     (Engine.with_catalog (__engine self)
                        (<[store_name self table :=
                             Engine.mkTable (Engine.columns tb) (Engine.rows tb ++ cdata)]>
                           (Engine.catalog (__engine self))))
                     (store_name self table)
                   = Some (Engine.rows tb ++ cdata)).
  { unfold stored_rows, Engine.with_catalog; simpl. now rewrite lookup_insert_eq. }
  exists schema, cdata, (Engine.rows tb). simpl.
  split; [rewrite describe_run; now rewrite Hdesc|].
  split; [exact Hmap|]. split; [exact Hlen|].
  split.
  { unfold Engine.execute_insert. now rewrite Htb, Hadded. }
  split; [unfold stored_rows; now rewrite Htb|].
  split; [exists cdata; split; [exact Hafter|exact Hlen]|].
  intros keys stored row Hstored Hrow _.
  exists (Engine.rows tb ++ cdata).
  split; [exact Hafter|].
  rewrite elem_of_app, length_app, Hlen. auto.
Qed.

End WriteAppends.

Lemma write_inserts_every_row_witness :
  exists self',
    @Storage.write SimpleCaster.cast_row "people" [Positional [PyInt 1; PyText "bob"]]
      Sample.storage = (Ok tt, self') /\
    stored_rows (Storage.__engine self') "test_people" = Some [Sample.ann; Sample.bob].
Proof.
  set (self1 := (@Storage.write SimpleCaster.cast_row "people"
                   [Positional [PyInt 1; PyText "bob"]] Sample.storage).2).
  assert (Hrun : @Storage.write SimpleCaster.cast_row "people"
                   [Positional [PyInt 1; PyText "bob"]] Sample.storage = (Ok tt, self1)).
  { vm_compute. reflexivity. }
  destruct (@write_inserts_every_row SimpleCaster.cast_row Sample.storage self1 "people"
              [Positional [PyInt 1; PyText "bob"]] Hrun)
    as (schema & cdata & old & _ & _ & _ & _ & _ & _ & _); [discriminate|].
  exists self1. split; [exact Hrun|].
  vm_compute. reflexivity.
Defined.

(** C1, as stated, fails: the table holds a row with the key projection of
    the incoming row on the key set [id], and [write] leaves that row as it
    was and inserts the incoming one beside it, where the claim has the
    non-key fields of the stored row updated and nothing inserted; it
    returns nothing, where the claim has an outcome reported. *)
Lemma write_appends_a_row_of_a_stored_key :
  stored_rows Sample.engine "test_people" = Some [Sample.ann] /\
  key_projection ["id"] Sample.ann = key_projection ["id"] Sample.bob /\
  exists self',
    @Storage.write SimpleCaster.cast_row "people" [Positional [PyInt 1; PyText "bob"]]
      Sample.storage = (Ok tt, self') /\
    stored_rows (Storage.__engine self') "test_people" = Some [Sample.ann; Sample.bob] /\
    stored_rows (Storage.__engine self') "test_people" <> Some [Sample.bob].
Proof.
  split; [vm_compute; reflexivity|].
  split; [vm_compute; reflexivity|].
  set (self1 := (@Storage.write SimpleCaster.cast_row "people"
                   [Positional [PyInt 1; PyText "bob"]] Sample.storage).2).
  exists self1.
  split; [vm_compute; reflexivity|].
  split; [vm_compute; reflexivity|].
  by_evaluation.
Qed.

(** * Further properties of the storage *)

(** ** The listing *)

Section ListingMore.

Import PyStr Storage.

Lemma collect_empty_prefix (names : list string) : collect EmptyString names = names.
Proof.
  induction names as [|name names IH]; [reflexivity|].
  simpl. rewrite IH. f_equal.
  destruct name; reflexivity.
Qed.

Lemma collect_NoDup (prefix : string) (names : list string) :
  NoDup names -> NoDup (collect prefix names).
Proof.
  intros H.
  apply (NoDup_fmap_1 (String.append prefix)).
  rewrite collect_spec. now apply NoDup_filter.
Qed.

(** X1.  With the default prefix (the empty string) and an empty cache, [tables]
    gives the table names of the store as they are: every name starts with
    the empty prefix, and replacing its first occurrence by the empty
    string changes nothing. *)
Theorem empty_prefix_lists_every_table (self : Storage.t) :
  __prefix self = EmptyString -> __tables self = None ->
  fst (tables self) = Ok (Engine.table_names (__engine self)).
Proof.
  intros Hp Hc. rewrite tables_run. simpl.
  unfold listing. now rewrite Hc, Hp, collect_empty_prefix.
Qed.

Lemma empty_prefix_lists_every_table_witness :
  fst (Storage.tables (Storage.init Sample.engine None EmptyString))
  = Ok ["other"; "test_legacy"; "test_people"].
Proof.
  rewrite (empty_prefix_lists_every_table (Storage.init Sample.engine None EmptyString)
             eq_refl eq_refl).
  vm_compute. reflexivity.
Defined.

(** X2.  With an empty cache, [tables] lists no table twice: the store names are
    distinct and stripping the leading prefix keeps them apart. *)
Theorem listing_has_no_duplicates (self : Storage.t) (names : list string) :
  __tables self = None ->
  fst (tables self) = Ok names ->
  NoDup names.
Proof.
  intros Hc. rewrite tables_run. simpl. intros [= <-].
  unfold listing. rewrite Hc.
  apply collect_NoDup. apply NoDup_fst_map_to_list.
Qed.

Lemma listing_has_no_duplicates_witness : NoDup ["legacy"; "people"].
Proof.
  apply (listing_has_no_duplicates Sample.storage); [reflexivity|].
  vm_compute. reflexivity.
Defined.

End ListingMore.

(** ** The lifecycle of a table *)

Section LifecycleMore.

Import Storage.

Lemma read_run (self : Storage.t) (table : string) :
  read table self =
  (rbind (Engine.reflect (__engine self) (store_name self table))
         (fun _ => Engine.execute_select (__engine self) (store_name self table)), self).
Proof.
  unfold read, bind, get, lift, store_name.
  destruct (Engine.reflect _ _); reflexivity.
Qed.

Lemma convert_schema_names (schema : Schema) (columns : list Column) :
  convert_schema schema = Ok columns ->
  map column_name columns = map field_name (fields schema).
Proof.
  unfold convert_schema. intros H. apply rmap_ok in H.
  induction H as [|field column l columns Hfc _ IH]; [reflexivity|].
  simpl. rewrite IH. f_equal.
  unfold convert_field in Hfc.
  destruct (convert_mapping (field_type field)); [|discriminate].
  now injection Hfc as <-.
Qed.

Lemma with_catalog_same (e : Engine.t) : Engine.with_catalog e (Engine.catalog e) = e.
Proof. now destruct e. Qed.

(** X3.  On a handle whose cache is coherent with the store, [check] tells
    whether the store has the table under the prefix; it reads the store
    and fills the cache, and changes neither the store nor the coherence. *)
Theorem check_reflects_store (self : Storage.t) (table : string) :
  coherent self ->
  exists self',
    check table self
      = (Ok (bool_decide (is_Some (Engine.catalog (__engine self) !! store_name self table))),
         self') /\
    __engine self' = __engine self /\
    coherent self'.
Proof.
  intros H. exists (cached self). rewrite check_run.
  split; [|split; [reflexivity|now apply cached_coherent]].
  f_equal. f_equal. apply bool_decide_ext. now apply listing_coherent.
Qed.

Lemma check_reflects_store_witness :
  fst (Storage.check "people" Sample.storage) = Ok true /\
  fst (Storage.check "other" Sample.storage) = Ok false.
Proof.
  split.
  - destruct (check_reflects_store Sample.storage "people" I) as (self' & -> & _).
    vm_compute. reflexivity.
  - destruct (check_reflects_store Sample.storage "other" I) as (self' & -> & _).
    vm_compute. reflexivity.
Defined.

(** X4.  When [create] returns for a schema of unique field names, the store
    has gained exactly the table under the prefixed name, which it lacked:
    one column per field of the schema, named after the fields and in their
    order, and no rows; every other table is as it was, and [read] of the
    new table gives no rows. *)
Theorem create_adds_one_empty_table (self self' : Storage.t) (table : string)
    (schema : Schema) :
  NoDup (map field_name (fields schema)) ->
  create table schema self = (Ok tt, self') ->
  exists columns,
    convert_schema schema = Ok columns /\
    map column_name columns = map field_name (fields schema) /\
    Engine.catalog (__engine self) !! store_name self table = None /\
    Engine.catalog (__engine self')
      = <[store_name self table := Engine.mkTable columns []]> (Engine.catalog (__engine self)) /\
    (forall other, other <> store_name self table ->
       Engine.catalog (__engine self') !! other = Engine.catalog (__engine self) !! other) /\
    read table self' = (Ok [], self').
Proof.
  intros _.
  rewrite create_run.
  destruct (bool_decide (table ∈ listing self)); [discriminate|].
  destruct (convert_schema schema) as [columns|e] eqn:Ec; [|discriminate].
  unfold Engine.create_table.
  destruct (Engine.catalog (__engine self) !! store_name self table) eqn:E; [discriminate|].
  intros [= <-]. exists columns.
  split; [reflexivity|]. split; [now apply convert_schema_names|].
  split; [reflexivity|]. split; [reflexivity|]. split.
  - intros other Hne. simpl. now rewrite lookup_insert_ne.
  - rewrite read_run. unfold Engine.reflect, Engine.execute_select, store_name; simpl.
    rewrite lookup_insert_eq. reflexivity.
Qed.

Lemma create_adds_one_empty_table_witness :
  exists self',
    Storage.create "articles" Sample.people Sample.storage = (Ok tt, self') /\
    Storage.read "articles" self' = (Ok [], self') /\
    stored_rows (Storage.__engine self') "test_people"
      = stored_rows Sample.engine "test_people".
Proof.
  set (self1 := (Storage.create "articles" Sample.people Sample.storage).2).
  assert (Hrun : Storage.create "articles" Sample.people Sample.storage = (Ok tt, self1)).
  { vm_compute. reflexivity. }
  assert (Hnd : NoDup (map field_name (fields Sample.people))) by by_evaluation.
  destruct (create_adds_one_empty_table Sample.storage self1 "articles" Sample.people
              Hnd Hrun)
    as (columns & _ & _ & _ & _ & Hother & Hread).
  exists self1. split; [exact Hrun|].
  split; [exact Hread|].
  unfold stored_rows. rewrite Hother; [reflexivity|by_evaluation].
Defined.

(** X5.  [create] and [delete] that raise, for whatever reason (the table is
    listed or not listed, a type is not supported, the store refuses), leave
    the store as it was. *)
Theorem failed_mutation_keeps_store (self self' : Storage.t) (table : string)
    (schema : Schema) (e : exn) :
  (create table schema self = (Raise e, self') -> __engine self' = __engine self) /\
  (delete table self = (Raise e, self') -> __engine self' = __engine self).
Proof.
  split.
  - rewrite create_run.
    destruct (bool_decide (table ∈ listing self)); [now intros [= _ <-]|].
    destruct (convert_schema schema); [|now intros [= _ <-]].
    destruct (Engine.create_table _ _ _); [discriminate|now intros [= _ <-]].
  - rewrite delete_run.
    destruct (bool_decide (table ∈ listing self)); [|now intros [= _ <-]].
    destruct (Engine.drop_table _ _); [discriminate|now intros [= _ <-]].
Qed.

Lemma failed_mutation_keeps_store_witness :
  exists self',
    Storage.delete "missing" Sample.storage
      = (Raise (RuntimeError ("Table " +:+ PyStr.dq +:+ "Storage <Engine(sqlite://)/None>"
                                +:+ PyStr.dq +:+ " is not existent.")), self') /\
    Storage.__engine self' = Sample.engine.
Proof.
  set (self1 := (Storage.delete "missing" Sample.storage).2).
  assert (Hrun : Storage.delete "missing" Sample.storage
                 = (Raise (RuntimeError ("Table " +:+ PyStr.dq
                                           +:+ "Storage <Engine(sqlite://)/None>"
                                           +:+ PyStr.dq +:+ " is not existent.")), self1)).
  { vm_compute. reflexivity. }
  exists self1. split; [exact Hrun|].
  exact (proj2 (failed_mutation_keeps_store Sample.storage self1 "missing" Sample.people _)
               Hrun).
Defined.

(** X6.  When [delete] returns, the store had the table under the prefixed name
    and has lost exactly it: every other table is as it was, and [describe]
    and [read] of the table raise the no-such-table error. *)
Theorem delete_removes_one_table (self self' : Storage.t) (table : string) :
  delete table self = (Ok tt, self') ->
  is_Some (Engine.catalog (__engine self) !! store_name self table) /\
  Engine.catalog (__engine self')
    = base.delete (store_name self table) (Engine.catalog (__engine self)) /\
  (forall other, other <> store_name self table ->
     Engine.catalog (__engine self') !! other = Engine.catalog (__engine self) !! other) /\
  describe table self' = (Raise (NoSuchTableError (store_name self table)), self') /\
  read table self' = (Raise (NoSuchTableError (store_name self table)), self').
Proof.
  rewrite delete_run.
  destruct (bool_decide (table ∈ listing self)); [|discriminate].
  unfold Engine.drop_table.
  destruct (Engine.catalog (__engine self) !! store_name self table) eqn:E; [|discriminate].
  intros [= <-].
  split; [eauto|]. split; [reflexivity|]. split.
  - intros other Hne. simpl. now rewrite lookup_delete_ne.
  - rewrite describe_run, read_run.
    unfold Engine.reflect, store_name; simpl.
    rewrite lookup_delete_eq. split; reflexivity.
Qed.

Lemma delete_removes_one_table_witness :
  exists self',
    Storage.delete "people" Sample.storage = (Ok tt, self') /\
    Storage.read "people" self' = (Raise (NoSuchTableError "test_people"), self') /\
    Engine.catalog (Storage.__engine self') !! "other"
      = Engine.catalog Sample.engine !! "other".
Proof.
  set (self1 := (Storage.delete "people" Sample.storage).2).
  assert (Hrun : Storage.delete "people" Sample.storage = (Ok tt, self1)).
  { vm_compute. reflexivity. }
  destruct (delete_removes_one_table Sample.storage self1 "people" Hrun)
    as (_ & _ & Hother & _ & Hread).
  exists self1. split; [exact Hrun|].
  split; [exact Hread|].
  apply Hother. by_evaluation.
Defined.

(** X7.  [create] followed by [delete] of the same table: the [delete] returns,
    and the store is back to what it was before the [create]. *)
Theorem create_then_delete_restores_store (self self1 : Storage.t) (table : string)
    (schema : Schema) :
  create table schema self = (Ok tt, self1) ->
  exists self2,
    delete table self1 = (Ok tt, self2) /\
    __engine self2 = __engine self.
Proof.
  rewrite create_run.
  destruct (bool_decide (table ∈ listing self)); [discriminate|].
  destruct (convert_schema schema) as [columns|e]; [|discriminate].
  unfold Engine.create_table.
  destruct (Engine.catalog (__engine self) !! store_name self table) eqn:E; [discriminate|].
  intros [= <-].
  eexists. rewrite delete_run.
  rewrite bool_decide_eq_true_2.
  2:{ unfold listing; simpl. apply elem_of_collect, elem_of_table_names; simpl.
      unfold store_name. rewrite lookup_insert_eq. eauto. }
  unfold Engine.drop_table, store_name; simpl.
  rewrite lookup_insert_eq. split; [reflexivity|]. simpl.
  unfold Engine.with_catalog; simpl.
  fold (store_name self table).
  rewrite delete_insert_eq, delete_id by exact E.
  now destruct (__engine self).
Qed.

Lemma create_then_delete_restores_store_witness :
  exists self1 self2,
    Storage.create "articles" Sample.people Sample.storage = (Ok tt, self1) /\
    Storage.delete "articles" self1 = (Ok tt, self2) /\
    Storage.__engine self2 = Sample.engine.
Proof.
  set (self1 := (Storage.create "articles" Sample.people Sample.storage).2).
  assert (Hrun : Storage.create "articles" Sample.people Sample.storage = (Ok tt, self1)).
  { vm_compute. reflexivity. }
  destruct (create_then_delete_restores_store Sample.storage self1 "articles" Sample.people Hrun)
    as (self2 & Hdel & Heng).
  exists self1, self2.
  split; [exact Hrun|]. split; [exact Hdel|exact Heng].
Defined.

(** X8.  The state of a table name goes from absent to present and back: after
    a [create] that returned, a second [create] of the table raises the
    already-existent error; after a [delete] that returned, a second
    [delete] raises the not-existent error; both leave the store alone. *)
Theorem repeated_mutation_raises (self self1 : Storage.t) (table : string)
    (schema again : Schema) :
  (create table schema self = (Ok tt, self1) ->
   exists self2,
     create table again self1
       = (Raise (RuntimeError ("Table " +:+ PyStr.dq +:+ table +:+ PyStr.dq
                                 +:+ " is already existent.")), self2) /\
     __engine self2 = __engine self1) /\
  (delete table self = (Ok tt, self1) ->
   exists self2,
     delete table self1
       = (Raise (RuntimeError ("Table " +:+ PyStr.dq +:+ repr self +:+ PyStr.dq
                                 +:+ " is not existent.")), self2) /\
     __engine self2 = __engine self1).
Proof.
  split.
  - rewrite create_run.
    destruct (bool_decide (table ∈ listing self)); [discriminate|].
    destruct (convert_schema schema) as [columns|e]; [|discriminate].
    unfold Engine.create_table.
    destruct (Engine.catalog (__engine self) !! store_name self table) eqn:E; [discriminate|].
    intros [= <-]. eexists. rewrite create_run.
    rewrite bool_decide_eq_true_2; [split; reflexivity|].
    unfold listing; simpl. apply elem_of_collect, elem_of_table_names; simpl.
    unfold store_name. rewrite lookup_insert_eq. eauto.
  - rewrite delete_run.
    destruct (bool_decide (table ∈ listing self)); [|discriminate].
    unfold Engine.drop_table.
    destruct (Engine.catalog (__engine self) !! store_name self table) eqn:E; [|discriminate].
    intros [= <-]. eexists. rewrite delete_run.
    rewrite bool_decide_eq_false_2; [split; reflexivity|].
    unfold listing; simpl. rewrite elem_of_collect, elem_of_table_names; simpl.
    unfold store_name. rewrite lookup_delete_eq. now intros [? ?].
Qed.

Lemma repeated_mutation_raises_witness :
  (exists self1 self2,
     Storage.create "articles" Sample.people Sample.storage = (Ok tt, self1) /\
     Storage.create "articles" Sample.people self1
       = (Raise (RuntimeError ("Table " +:+ PyStr.dq +:+ "articles" +:+ PyStr.dq
                                 +:+ " is already existent.")), self2)) /\
  (exists self1 self2,
     Storage.delete "people" Sample.storage = (Ok tt, self1) /\
     Storage.delete "people" self1
       = (Raise (RuntimeError ("Table " +:+ PyStr.dq +:+ "Storage <Engine(sqlite://)/None>"
                                 +:+ PyStr.dq +:+ " is not existent.")), self2)).
Proof.
  split.
  - set (self1 := (Storage.create "articles" Sample.people Sample.storage).2).
    assert (Hfirst : Storage.create "articles" Sample.people Sample.storage = (Ok tt, self1)).
    { vm_compute. reflexivity. }
    destruct (repeated_mutation_raises Sample.storage self1
                "articles" Sample.people Sample.people) as [Hcreate _].
    destruct (Hcreate Hfirst) as (self2 & Hrun & _).
    exists self1, self2. split; [exact Hfirst|exact Hrun].
  - set (self1 := (Storage.delete "people" Sample.storage).2).
    assert (Hfirst : Storage.delete "people" Sample.storage = (Ok tt, self1)).
    { vm_compute. reflexivity. }
    destruct (repeated_mutation_raises Sample.storage self1
                "people" Sample.people Sample.people) as [_ Hdelete].
    destruct (Hdelete Hfirst) as (self2 & Hrun & Heng).
    exists self1, self2. split; [exact Hfirst|].
    etransitivity; [exact Hrun|]. reflexivity.
Defined.

End LifecycleMore.

(** ** Reading and writing rows *)

Section WriteMore.

Import Storage.

Context `{caster : RowCaster}.



(** X10.  When [write] returns, it has appended rows to the table and done
    nothing else to the store: the rows that the table had are kept, in
    order, at the head of its rows; the columns of every table, the rows
    of every other table and the set of tables are as they were, and the
    cache of the listing is untouched. *)
Theorem write_only_appends (self self' : Storage.t) (table : string) (data : list rawrow) :
  write table data self = (Ok tt, self') ->
  (exists old added,
     stored_rows (__engine self) (store_name self table) = Some old /\
     stored_rows (__engine self') (store_name self table) = Some (old ++ added)) /\
  (forall name,
     Engine.columns <$> Engine.catalog (__engine self') !! name
     = Engine.columns <$> Engine.catalog (__engine self) !! name) /\
  (forall name, name <> store_name self table ->
     Engine.catalog (__engine self') !! name = Engine.catalog (__engine self) !! name) /\
  (forall other, fst (describe other self') = fst (describe other self)) /\
  __tables self' = __tables self.
Proof.
  rewrite write_run.
  destruct (rbind _ _) as [schema|e]; [|discriminate].
  destruct (rmap _ _) as [cdata|e]; [|discriminate].
  unfold Engine.execute_insert.
  destruct (Engine.catalog (__engine self) !! store_name self table) as [tb|] eqn:E;
    [|discriminate].
  intros [= <-]. unfold stored_rows, Engine.with_catalog. simpl.
  assert (Hcols : forall name,
             Engine.columns <$>
               <[store_name self table :=
                   Engine.mkTable (Engine.columns tb)
                     (Engine.rows tb ++ match cdata with
                                        | [] => Engine.empty_insert (__engine self)
                                        | _ :: _ => cdata
                                        end)]> (Engine.catalog (__engine self)) !! name
             = Engine.columns <$> Engine.catalog (__engine self) !! name).
  { intros name. destruct (decide (store_name self table = name)) as [<-|Hne].
    - now rewrite lookup_insert_eq, E.
    - now rewrite lookup_insert_ne. }
  split; [|split; [exact Hcols|split; [|split; [|reflexivity]]]].
  - rewrite E, lookup_insert_eq. simpl. eauto.
  - intros name Hne. now rewrite lookup_insert_ne.
  - intros other. rewrite !describe_run. simpl.
    unfold Engine.reflect, store_name; simpl.
    specialize (Hcols (__prefix self +:+ other)).
    destruct (_ !! (__prefix self +:+ other)) as [tb1|];
      destruct (Engine.catalog (__engine self) !! (__prefix self +:+ other)) as [tb2|];
      simpl in Hcols; try discriminate; [|reflexivity].
    injection Hcols as ->. reflexivity.
Qed.

(** X11.  [read] and [write] on a table that the store lacks raise the
    no-such-table error of the reflection, whatever the rows, and leave the
    handle and the store as they were. *)
Theorem missing_table_raises (self : Storage.t) (table : string) (data : list rawrow) :
  Engine.catalog (__engine self) !! store_name self table = None ->
  read table self = (Raise (NoSuchTableError (store_name self table)), self) /\
  write table data self = (Raise (NoSuchTableError (store_name self table)), self).
Proof.
  intros Hnone. rewrite read_run, write_run.
  unfold Engine.reflect. rewrite Hnone. split; reflexivity.
Qed.

(** X12.  A table with a column of a type outside the reverse mapping can be
    read but not written: [read] gives a tuple per stored row, in column
    order, while [write] raises the type error of [describe] for the first
    such column, before it converts any row, and inserts nothing. *)
Theorem unmapped_column_blocks_write (self : Storage.t) (table : string)
    (tb : Engine.dbtable) (pre post : list Column) (bad : Column) (data : list rawrow) :
  Engine.catalog (__engine self) !! store_name self table = Some tb ->
  map (fun c => mkColumn (column_name c)
                  (Engine.reflected_type (__engine self) (column_type c)))
      (Engine.columns tb)
  = pre ++ bad :: post ->
  Forall (fun c => is_Some (restore_mapping (column_type c))) pre ->
  restore_mapping (column_type bad) = None ->
  read table self
    = (Ok (map (fun r : record =>
                  map (fun c => default PyNone (r !! column_name c)) (Engine.columns tb))
               (Engine.rows tb)), self) /\
  write table data self
    = (Raise (TypeError ("Type " +:+ sqltype_str (column_type bad)
                           +:+ " is not supported")), self).
Proof.
  intros Htb Hcols Hpre Hbad.
  assert (Hrefl : Engine.reflect (__engine self) (store_name self table)
                  = Ok (pre ++ bad :: post)).
  { unfold Engine.reflect. now rewrite Htb, Hcols. }
  split.
  - rewrite read_run, Hrefl. simpl.
    unfold Engine.execute_select. now rewrite Htb.
  - rewrite write_run, Hrefl. simpl. unfold restore_schema.
    erewrite rmap_raise; [reflexivity| |].
    + eapply Forall_impl; [exact Hpre|].
      intros c [type Hc]. unfold restore_column. rewrite Hc. eauto.
    + unfold restore_column. now rewrite Hbad.
Qed.


(** X15.  The methods keep the handle coherent with the store: after [tables],
    [check], [create], [delete], [describe], [read] or [write], returned or
    raised, a cache that is filled lists exactly the tables that the store
    has under the prefix. *)
Theorem methods_keep_coherence (self : Storage.t) (table : string) (schema : Schema)
    (data : list rawrow) :
  coherent self ->
  coherent (tables self).2 /\ coherent (check table self).2 /\
  coherent (create table schema self).2 /\ coherent (delete table self).2 /\
  coherent (describe table self).2 /\ coherent (read table self).2 /\
  coherent (write table data self).2.
Proof.
  intros H.
  rewrite tables_run, check_run, describe_run, read_run. cbn [snd].
  split; [now apply cached_coherent|].
  split; [now apply cached_coherent|].
  split; [now apply create_coherent|].
  split; [now apply delete_coherent|].
  split; [assumption|]. split; [assumption|].
  now apply write_coherent.
Qed.

End WriteMore.

Lemma write_only_appends_witness :
  exists old added,
    stored_rows Sample.engine "test_people" = Some old /\
    stored_rows
      (Storage.__engine
         (@Storage.write SimpleCaster.cast_row "people"
            [Positional [PyText "2"; PyText "bob"]] Sample.storage).2)
      "test_people" = Some (old ++ added).
Proof.
  apply (@write_only_appends SimpleCaster.cast_row Sample.storage
           (@Storage.write SimpleCaster.cast_row "people"
              [Positional [PyText "2"; PyText "bob"]] Sample.storage).2
           "people" [Positional [PyText "2"; PyText "bob"]]).
  vm_compute. reflexivity.
Defined.

Lemma missing_table_raises_witness :
  Storage.read "missing" Sample.storage
    = (Raise (NoSuchTableError "test_missing"), Sample.storage) /\
  @Storage.write SimpleCaster.cast_row "missing" [Positional [PyText "bad"]] Sample.storage
    = (Raise (NoSuchTableError "test_missing"), Sample.storage).
Proof.
  apply (@missing_table_raises SimpleCaster.cast_row Sample.storage "missing").
  reflexivity.
Defined.

Lemma unmapped_column_blocks_write_witness :
  Storage.read "legacy" Sample.storage = (Ok [], Sample.storage) /\
  @Storage.write SimpleCaster.cast_row "legacy" [Positional [PyInt 1; PyText "x"]]
    Sample.storage
  = (Raise (TypeError "Type DATE is not supported"), Sample.storage).
Proof.
  apply (@unmapped_column_blocks_write SimpleCaster.cast_row Sample.storage "legacy"
           (Engine.mkTable [mkColumn "id" Integer; mkColumn "born" (OtherType "DATE")] [])
           [mkColumn "id" INTEGER] [] (mkColumn "born" (OtherType "DATE"))
           [Positional [PyInt 1; PyText "x"]]).
  - reflexivity.
  - reflexivity.
  - repeat constructor. simpl. eauto.
  - reflexivity.
Defined.


Lemma methods_keep_coherence_witness :
  coherent (Storage.create "articles" Sample.people Sample.storage).2 /\
  coherent (Storage.check "people" Sample.storage).2.
Proof.
  destruct (@methods_keep_coherence SimpleCaster.cast_row Sample.storage "articles"
              Sample.people [] I) as (_ & _ & Hcreate & _).
  destruct (@methods_keep_coherence SimpleCaster.cast_row Sample.storage "people"
              Sample.people [] I) as (_ & Hcheck & _).
  split; assumption.
Defined.
